(** * SyncStream: the realtime synchronisation core

    A shallow embedding of the server storage ([MemStorage], server/storage.ts
    as bundled in the server build and as the stand-alone storage module),
    of the WebSocket handlers of server/routes.ts (and of their bundled
    variant), and of the client reconnection logic of
    client/src/hooks/use-websocket.ts. *)

From Stdlib Require Import String ZArith Lia.
From stdpp Require Import base gmap strings list.

Open Scope Z_scope.

(** ** JavaScript values *)

(** A field of a JavaScript object that may hold [undefined], [null] or a
    value of type [A]. *)
Inductive jsv (A : Type) : Type :=
| Undef : jsv A
| Null : jsv A
| Val : A -> jsv A.
Arguments Undef {A}.
Arguments Null {A}.
Arguments Val {A} _.

#[global] Instance jsv_eq_dec {A} `{EqDecision A} : EqDecision (jsv A).
Proof. solve_decision. Defined.

(** Truthiness of the JavaScript values the code tests with [||] and [&&]. *)
Definition truthy_str (x : jsv string) : bool :=
  match x with Val s => negb (String.eqb s "") | _ => false end.
Definition truthy_Z (x : jsv Z) : bool :=
  match x with Val z => negb (Z.eqb z 0) | _ => false end.
Definition truthy_bool (x : jsv bool) : bool :=
  match x with Val b => b | _ => false end.
Definition truthy_obj {A} (x : jsv A) : bool :=
  match x with Val _ => true | _ => false end.

(** ** Shared schema (shared/schema.ts) *)

Record VideoSource := mkVideoSource {
  vs_id : string;
  vs_url : string;
  vs_title : string;
  vs_language : jsv string;
  vs_delay : jsv Z;
  vs_addedBy : jsv string
}.

#[global] Instance VideoSource_eq_dec : EqDecision VideoSource.
Proof. solve_decision. Defined.

(** A [Date] is a timestamp, an integer number of milliseconds. *)
Definition Date := Z.

(** The [sessions] row type [Session]. *)
Record Session := mkSession {
  id : string;
  videoUrl : jsv string;
  videoSources : jsv (list VideoSource);
  selectedSourceId : jsv string;
  isPlaying : jsv bool;
  currentTime : jsv Z;
  createdAt : Date;
  updatedAt : Date
}.

(** [InsertSession]: the fields picked by [insertSessionSchema]. *)
Record InsertSession := mkInsertSession {
  ins_id : string;
  ins_videoUrl : jsv string;
  ins_videoSources : jsv (list VideoSource);
  ins_isPlaying : jsv bool;
  ins_currentTime : jsv Z
}.

(** [Partial<Session>] restricted to the keys the WebSocket handlers pass:
    [None] is a key absent from the object, [Some v] a key present with
    value [v] (possibly [undefined]). The PATCH route, which passes the
    request body as it is and so may also override [id] or [createdAt],
    is not modelled. *)
Record SessionPatch := mkPatch {
  p_videoUrl : option (jsv string);
  p_videoSources : option (jsv (list VideoSource));
  p_selectedSourceId : option (jsv string);
  p_isPlaying : option (jsv bool);
  p_currentTime : option (jsv Z)
}.

Definition empty_patch : SessionPatch := mkPatch None None None None None.

(** The [viewers] row type [Viewer]. *)
Record Viewer := mkViewer {
  viewer_row_id : Z;
  v_sessionId : string;
  v_viewerId : string;
  lastSeen : Date
}.

(** ** MemStorage (server/storage.ts) *)

Record MemStorage := mkStorage {
  sessions : gmap string Session;
  viewers : gmap string Viewer;
  currentViewerId : Z
}.

Definition getSession (st : MemStorage) (sid : string) : option Session :=
  sessions st !! sid.

Definition set_sessions (st : MemStorage) (m : gmap string Session) : MemStorage :=
  mkStorage m (viewers st) (currentViewerId st).

Definition set_viewers (st : MemStorage) (m : gmap string Viewer) : MemStorage :=
  mkStorage (sessions st) m (currentViewerId st).

(** [createSession] of the bundled server build (dist, lines 41-54). *)
Definition createSession (now : Date) (ins : InsertSession) (st : MemStorage)
  : Session * MemStorage :=
  let session := {|
    id := ins_id ins;
    videoUrl := if truthy_str (ins_videoUrl ins) then ins_videoUrl ins else Null;
    videoSources := Val [];
    selectedSourceId := Null;
    isPlaying := Val false;
    currentTime := Val 0;
    createdAt := now;
    updatedAt := now |} in
  (session, set_sessions st (<[ins_id ins := session]> (sessions st))).

(** [createSession] of the stand-alone storage module: [videoUrl] and
    [selectedSourceId] are not set, and [isPlaying || null],
    [currentTime || null] are stored. *)
Definition createSession_ts (now : Date) (ins : InsertSession) (st : MemStorage)
  : Session * MemStorage :=
  let session := {|
    id := ins_id ins;
    videoUrl := Undef;
    videoSources := match ins_videoSources ins with
                    | Val l => Val l | _ => Val [] end;
    selectedSourceId := Undef;
    isPlaying := if truthy_bool (ins_isPlaying ins) then ins_isPlaying ins else Null;
    currentTime := if truthy_Z (ins_currentTime ins) then ins_currentTime ins else Null;
    createdAt := now;
    updatedAt := now |} in
  (session, set_sessions st (<[ins_id ins := session]> (sessions st))).

Definition over {A} (u : option A) (old : A) : A :=
  match u with Some v => v | None => old end.

(** [{ ...session, ...updates, updatedAt: new Date() }] *)
Definition merge_patch (now : Date) (s : Session) (u : SessionPatch) : Session := {|
  id := id s;
  videoUrl := over (p_videoUrl u) (videoUrl s);
  videoSources := over (p_videoSources u) (videoSources s);
  selectedSourceId := over (p_selectedSourceId u) (selectedSourceId s);
  isPlaying := over (p_isPlaying u) (isPlaying s);
  currentTime := over (p_currentTime u) (currentTime s);
  createdAt := createdAt s;
  updatedAt := now |}.

Definition updateSession (now : Date) (sid : string) (u : SessionPatch)
    (st : MemStorage) : option Session * MemStorage :=
  match sessions st !! sid with
  | None => (None, st)
  | Some s =>
      let s' := merge_patch now s u in
      (Some s', set_sessions st (<[sid := s']> (sessions st)))
  end.

(** The registry key [`${sessionId}-${viewerId}`]. *)
Definition viewer_key (sessionId viewerId : string) : string :=
  sessionId ++ "-" ++ viewerId.

Definition addViewer (now : Date) (sessionId viewerId : string) (st : MemStorage)
  : Viewer * MemStorage :=
  let vid := currentViewerId st in
  let viewer := mkViewer vid sessionId viewerId now in
  (viewer, mkStorage (sessions st)
             (<[viewer_key sessionId viewerId := viewer]> (viewers st)) (vid + 1)).

Definition removeViewer (sessionId viewerId : string) (st : MemStorage)
  : bool * MemStorage :=
  let key := viewer_key sessionId viewerId in
  (bool_decide (is_Some (viewers st !! key)), set_viewers st (delete key (viewers st))).

Definition updateViewerLastSeen (now : Date) (sessionId viewerId : string)
    (st : MemStorage) : MemStorage :=
  let key := viewer_key sessionId viewerId in
  match viewers st !! key with
  | Some v => set_viewers st (<[key := mkViewer (viewer_row_id v) (v_sessionId v)
                                          (v_viewerId v) now]> (viewers st))
  | None => st
  end.

(** The video-source methods that server/routes.ts calls on its storage
    are not part of the storage modules in the repository's sources. *)

(** Modelled from the spec: [addVideoSource] of the storage used by
    server/routes.ts. It appends a VideoSource to [videoSources], generating
    its id (here [fresh]) if absent, and returns the updated list; it fails
    for a session absent from the store. *)
Definition addVideoSource (now : Date) (fresh : string) (sid : string)
    (src : VideoSource) (st : MemStorage) : option (list VideoSource) * MemStorage :=
  match sessions st !! sid with
  | None => (None, st)
  | Some s =>
      let src' := if String.eqb (vs_id src) "" then
                    mkVideoSource fresh (vs_url src) (vs_title src) (vs_language src)
                      (vs_delay src) (vs_addedBy src)
                  else src in
      let l := match videoSources s with Val l => l | _ => [] end ++ [src'] in
      (Some l, set_sessions st (<[sid := merge_patch now s
                   (mkPatch None (Some (Val l)) None None None)]> (sessions st)))
  end.

(** Modelled from the spec: [removeVideoSource] of the storage used by
    server/routes.ts. It removes the VideoSources with the given id from
    [videoSources] and returns the updated list; it fails for a session
    absent from the store. *)
Definition removeVideoSource (now : Date) (sid : string) (sourceId : string)
    (st : MemStorage) : option (list VideoSource) * MemStorage :=
  match sessions st !! sid with
  | None => (None, st)
  | Some s =>
      let l := List.filter (fun v => negb (String.eqb (vs_id v) sourceId))
                 match videoSources s with Val l => l | _ => [] end in
      (Some l, set_sessions st (<[sid := merge_patch now s
                   (mkPatch None (Some (Val l)) None None None)]> (sessions st)))
  end.

(** ** Wire protocol *)

Record MsgData := mkData {
  d_currentTime : jsv Z;
  d_isPlaying : jsv bool;
  d_videoUrl : jsv string;
  d_videoSources : jsv (list VideoSource);
  d_selectedSourceId : jsv string;
  d_viewerId : jsv string;
  d_videoSource : jsv VideoSource
}.

Definition no_data : MsgData := mkData Undef Undef Undef Undef Undef Undef Undef.

(** [SyncMessage]; the [type] is whatever string the JSON carried. *)
Record SyncMessage := mkMsg {
  m_type : string;
  m_sessionId : string;
  m_data : option MsgData
}.

#[global] Instance MsgData_eq_dec : EqDecision MsgData.
Proof. solve_decision. Defined.
#[global] Instance SyncMessage_eq_dec : EqDecision SyncMessage.
Proof. solve_decision. Defined.

(** [message.data?.field] *)
Definition data_field {A} (f : MsgData -> jsv A) (m : SyncMessage) : jsv A :=
  match m_data m with Some d => f d | None => Undef end.

(** An inbound frame, by what [JSON.parse(data.toString())] and the first
    [message.type] access make of it:
    - [Parsed m]: a JSON object;
    - [NonObject raw]: JSON that is a number, a string, a boolean or an
      array; [message.type] and [message.data?.x] are then undefined, so no
      branch of the handler applies, but nothing throws either; [raw] is
      the text [JSON.stringify] gives back for the value;
    - [Unparseable]: a body that is not JSON ([JSON.parse] throws) or the
      JSON [null] ([message.type] throws a TypeError). *)
Inductive Inbound :=
| Parsed (m : SyncMessage)
| NonObject (raw : string)
| Unparseable.

(** ** Connections (server/routes.ts) *)

Definition OPEN : Z := 1.

Record WebSocket := mkWs { ws_id : Z; readyState : Z }.

Record ClientConnection := mkConn {
  ws : WebSocket;
  c_sessionId : string;
  c_viewerId : string
}.

(** What the server writes to its sockets. *)
Inductive Outbound :=
| Send (to : Z) (m : SyncMessage)
(** [ws.send] of a relayed value that is not an object, as its JSON text *)
| SendRaw (to : Z) (raw : string)
| CloseWs (to : Z) (code : Z) (reason : string).

(** [Map.prototype.set]: replaces the value in place or appends the key;
    [forEach] visits the entries in this insertion order. *)
Fixpoint map_set {V} (k : string) (v : V) (l : list (string * V)) : list (string * V) :=
  match l with
  | [] => [(k, v)]
  | (k', v') :: t => if String.eqb k k' then (k, v) :: t else (k', v') :: map_set k v t
  end.

Fixpoint map_delete {V} (k : string) (l : list (string * V)) : list (string * V) :=
  match l with
  | [] => []
  | (k', v') :: t => if String.eqb k k' then t else (k', v') :: map_delete k t
  end.

(** [conn.viewerId !== excludeViewerId], [excludeViewerId] being optional. *)
Definition not_excluded (viewerId : string) (excludeViewerId : option string) : bool :=
  match excludeViewerId with
  | None => true
  | Some x => negb (String.eqb viewerId x)
  end.

Definition delivers (sessionId : string) (excludeViewerId : option string)
    (conn : ClientConnection) : bool :=
  String.eqb (c_sessionId conn) sessionId &&
  not_excluded (c_viewerId conn) excludeViewerId &&
  Z.eqb (readyState (ws conn)) OPEN.

(** [broadcastToSession]: one [ws.send] per matching open connection. *)
Fixpoint broadcastToSession (connections : list (string * ClientConnection))
    (sessionId : string) (message : SyncMessage) (excludeViewerId : option string)
    : list Outbound :=
  match connections with
  | [] => []
  | (_, conn) :: rest =>
      (if delivers sessionId excludeViewerId conn
       then [Send (ws_id (ws conn)) message] else [])
      ++ broadcastToSession rest sessionId message excludeViewerId
  end.

(** [broadcastToSession] called with a parsed value that is not an object:
    the same filter, each frame being that value's JSON text. *)
Fixpoint broadcastRaw (connections : list (string * ClientConnection))
    (sessionId : string) (raw : string) (excludeViewerId : option string)
    : list Outbound :=
  match connections with
  | [] => []
  | (_, conn) :: rest =>
      (if delivers sessionId excludeViewerId conn
       then [SendRaw (ws_id (ws conn)) raw] else [])
      ++ broadcastRaw rest sessionId raw excludeViewerId
  end.

Record Server := mkServer {
  store : MemStorage;
  connections : list (string * ClientConnection);
  out : list Outbound
}.

(** ** WebSocket handlers (server/routes.ts) *)

(** [x || d] on the numeric, boolean and string fields. *)
Definition or_Z (x : jsv Z) (d : Z) : Z :=
  match x with Val z => if Z.eqb z 0 then d else z | _ => d end.
Definition or_bool (x : jsv bool) (d : bool) : bool :=
  match x with Val true => true | _ => d end.
Definition or_str (x : jsv string) (d : string) : string :=
  match x with Val s => if String.eqb s "" then d else s | _ => d end.
Definition or_list {A} (x : jsv (list A)) (d : list A) : list A :=
  match x with Val l => l | _ => d end.

Definition viewer_data (v : string) : MsgData :=
  mkData Undef Undef Undef Undef Undef (Val v) Undef.

Definition sources_data (l : list VideoSource) : MsgData :=
  mkData Undef Undef Undef (Val l) Undef Undef Undef.

(** The join snapshot of server/routes.ts: three fields. *)
Definition snapshot_routes (sessionId : string) (session : Session) : SyncMessage :=
  mkMsg "sync" sessionId (Some (mkData
    (Val (or_Z (currentTime session) 0))
    (Val (or_bool (isPlaying session) false))
    (Val (or_str (videoUrl session) ""))
    Undef Undef Undef Undef)).

(** The join snapshot of the bundled server build: five fields. *)
Definition snapshot_bundle (sessionId : string) (session : Session) : SyncMessage :=
  mkMsg "sync" sessionId (Some (mkData
    (Val (or_Z (currentTime session) 0))
    (Val (or_bool (isPlaying session) false))
    (Val (or_str (videoUrl session) ""))
    (Val (or_list (videoSources session) []))
    (selectedSourceId session)
    Undef Undef)).

(** [wss.on('connection')]. [connectionId] is the fresh [nanoid()]; the
    [getSession(...).then] continuation runs as a microtask right after the
    synchronous part of the handler, before any other socket event. *)
Definition on_connection_with (snap : string -> Session -> SyncMessage)
    (now : Date) (connectionId : string) (sock : WebSocket)
    (sessionId viewerId : option string) (srv : Server) : Server :=
  let reject := mkServer (store srv) (connections srv)
                  (out srv ++ [CloseWs (ws_id sock) 1008 "Missing sessionId or viewerId"]) in
  match sessionId, viewerId with
  | Some s, Some v =>
      if String.eqb s "" || String.eqb v "" then reject else
      let conns := map_set connectionId (mkConn sock s v) (connections srv) in
      let st := snd (addViewer now s v (store srv)) in
      let join := broadcastToSession conns s
                    (mkMsg "viewer-join" s (Some (viewer_data v))) (Some v) in
      let snapshot := match getSession st s with
                      | Some session =>
                          if Z.eqb (readyState sock) OPEN
                          then [Send (ws_id sock) (snap s session)] else []
                      | None => []
                      end in
      mkServer st conns (out srv ++ join ++ snapshot)
  | _, _ => reject
  end.

Definition on_connection := on_connection_with snapshot_bundle.
Definition on_connection_routes := on_connection_with snapshot_routes.

Definition is_playback_type (ty : string) : bool :=
  String.eqb ty "sync" || String.eqb ty "play" || String.eqb ty "pause" ||
  String.eqb ty "seek".

(** The [sync]/[play]/[pause]/[seek] branch: the patch
    [{ currentTime: message.data?.currentTime, isPlaying: message.data?.isPlaying }]. *)
Definition playback_patch (m : SyncMessage) : SessionPatch :=
  mkPatch None None None (Some (data_field d_isPlaying m))
    (Some (data_field d_currentTime m)).

(** The [video-change] branch of server/routes.ts. *)
Definition step_video_change (now : Date) (sessionId : string) (m : SyncMessage)
    (st : MemStorage) : MemStorage :=
  if String.eqb (m_type m) "video-change" && truthy_str (data_field d_videoUrl m)
  then snd (updateSession now sessionId
              (mkPatch (Some (data_field d_videoUrl m)) None None
                 (Some (Val false)) (Some (Val 0))) st)
  else st.

(** The [sync]/[play]/[pause]/[seek] branch. *)
Definition step_playback (now : Date) (sessionId : string) (m : SyncMessage)
    (st : MemStorage) : MemStorage :=
  if is_playback_type (m_type m)
  then snd (updateSession now sessionId (playback_patch m) st)
  else st.

(** The [source-add] branch: a failing [addVideoSource] is caught and
    nothing is broadcast. *)
Definition step_source_add (now : Date) (fresh : string)
    (conns : list (string * ClientConnection)) (sessionId : string)
    (m : SyncMessage) (st : MemStorage) : MemStorage * list Outbound :=
  match String.eqb (m_type m) "source-add", data_field d_videoSource m with
  | true, Val src =>
      match addVideoSource now fresh sessionId src st with
      | (Some l, st') =>
          (st', broadcastToSession conns sessionId
                  (mkMsg "source-add" sessionId (Some (sources_data l))) None)
      | (None, st') => (st', [])
      end
  | _, _ => (st, [])
  end.

(** The [source-remove] branch, guarded by a truthy
    [message.data?.selectedSourceId]. *)
Definition step_source_remove (now : Date)
    (conns : list (string * ClientConnection)) (sessionId : string)
    (m : SyncMessage) (st : MemStorage) : MemStorage * list Outbound :=
  match String.eqb (m_type m) "source-remove", data_field d_selectedSourceId m with
  | true, Val sid =>
      if String.eqb sid "" then (st, []) else
      match removeVideoSource now sessionId sid st with
      | (Some l, st') =>
          (st', broadcastToSession conns sessionId
                  (mkMsg "source-remove" sessionId (Some (sources_data l))) None)
      | (None, st') => (st', [])
      end
  | _, _ => (st, [])
  end.

(** [ws.on('message')] of server/routes.ts for the connection of
    [sessionId]/[viewerId]; [fresh] is the id a storage may generate for a
    new source. The handler's awaits are on in-memory storage calls and are
    taken as one step. *)
Definition on_message (now : Date) (fresh : string) (sessionId viewerId : string)
    (inbound : Inbound) (srv : Server) : Server :=
  match inbound with
  | Unparseable => srv
  | NonObject raw =>
      let conns := connections srv in
      mkServer (updateViewerLastSeen now sessionId viewerId (store srv)) conns
        (out srv ++ broadcastRaw conns sessionId raw (Some viewerId))
  | Parsed m =>
      let conns := connections srv in
      let st2 := step_video_change now sessionId m
                   (step_playback now sessionId m (store srv)) in
      let r3 := step_source_add now fresh conns sessionId m st2 in
      let r4 := step_source_remove now conns sessionId m r3.1 in
      let relay := broadcastToSession conns sessionId m (Some viewerId) in
      mkServer (updateViewerLastSeen now sessionId viewerId r4.1) conns
        (out srv ++ r3.2 ++ r4.2 ++ relay)
  end.

(** [ws.on('message')] of the bundled server build. *)
Definition on_message_bundle (now : Date) (sessionId viewerId : string)
    (inbound : Inbound) (srv : Server) : Server :=
  match inbound with
  | Unparseable => srv
  | NonObject raw =>
      let conns := connections srv in
      mkServer (updateViewerLastSeen now sessionId viewerId (store srv)) conns
        (out srv ++ broadcastRaw conns sessionId raw (Some viewerId))
  | Parsed m =>
      let ty := m_type m in
      let conns := connections srv in
      let st0 := store srv in
      let st1 := if is_playback_type ty
                 then snd (updateSession now sessionId (playback_patch m) st0)
                 else st0 in
      let st2 := if String.eqb ty "video-change" && truthy_str (data_field d_videoUrl m)
                 then snd (updateSession now sessionId
                        (mkPatch (Some (data_field d_videoUrl m))
                           (Some (Val (or_list (data_field d_videoSources m) [])))
                           (Some (data_field d_selectedSourceId m))
                           (Some (Val false)) (Some (Val 0))) st1)
                 else st1 in
      let relay := if String.eqb ty "source-change" then []
                   else broadcastToSession conns sessionId m (Some viewerId) in
      let st3 := updateViewerLastSeen now sessionId viewerId st2 in
      mkServer st3 conns (out srv ++ relay)
  end.

(** [POST /api/sessions]: [fresh] is the [nanoid()] used when the body has
    no [sessionId]; [create] is the storage's [createSession]. *)
Definition post_sessions
    (create : Date -> InsertSession -> MemStorage -> Session * MemStorage)
    (now : Date) (fresh : string) (body_sessionId body_videoUrl : jsv string)
    (st : MemStorage) : Session * MemStorage :=
  let sessionId := or_str body_sessionId fresh in
  match getSession st sessionId with
  | Some session => (session, st)
  | None =>
      create now (mkInsertSession sessionId
                    (if truthy_str body_videoUrl then body_videoUrl else Null)
                    Undef (Val false) (Val 0)) st
  end.

(** ** Client reconnection (client/src/hooks/use-websocket.ts) *)

Module Client.

Inductive ConnectionStatus := connecting | connected | disconnected | error.

Record State := mkState {
  connectionStatus : ConnectionStatus;
  isConnected : bool;
  reconnectAttempts : Z;
  (** the delay of the pending [setTimeout], if one is pending *)
  reconnectTimeout : option Z;
  (** every delay passed to [setTimeout], oldest first *)
  scheduled : list Z
}.

(** The events the hook reacts to: its own [connect()] and [disconnect()]
    calls, the socket's [onopen], [onerror], [onclose], and the reconnect
    timer firing. *)
Inductive Event := Connect | Open | Err | Close | TimerFire | Disconnect.

Definition initial : State := mkState disconnected false 0 None [].

Definition backoff (attempts : Z) : Z := Z.min (1000 * 2 ^ attempts) 10000.

(** [connect()] with a sessionId and viewerId present. *)
Definition connect (s : State) : State :=
  mkState connecting (isConnected s) (reconnectAttempts s) (reconnectTimeout s)
    (scheduled s).

(** One socket at a time: [reconnectTimeout] is the timer of the latest
    [onclose]. A [Close] while a timer is pending replaces it here, whereas
    in the hook the earlier [setTimeout] would still fire; runs with two
    live sockets (a [connect()] while one is open) are not modelled. *)
Definition step (s : State) (e : Event) : State :=
  match e with
  | Connect => connect s
  | Open => mkState connected true 0 (reconnectTimeout s) (scheduled s)
  | Err => mkState error (isConnected s) (reconnectAttempts s) (reconnectTimeout s)
             (scheduled s)
  | Close =>
      if Z.ltb (reconnectAttempts s) 5 then
        let delay := backoff (reconnectAttempts s) in
        mkState disconnected false (reconnectAttempts s) (Some delay)
          (scheduled s ++ [delay])
      else mkState error false (reconnectAttempts s) (reconnectTimeout s) (scheduled s)
  | TimerFire =>
      match reconnectTimeout s with
      | Some _ => connect (mkState (connectionStatus s) (isConnected s)
                             (reconnectAttempts s + 1) None (scheduled s))
      | None => s
      end
  | Disconnect => mkState disconnected false (reconnectAttempts s) None (scheduled s)
  end.

Definition run (s : State) (es : list Event) : State := fold_left step es s.

(** A connection attempt that fails at once: [onerror] then [onclose]. *)
Definition failure : list Event := [Err; Close].

End Client.

(** ** More of the server (server/routes.ts, server/storage.ts) *)

(** [ws.on('close')]: deregister the connection, remove the viewer, then
    tell the remaining connections of the session (no exclusion). *)
Definition on_close (connectionId sessionId viewerId : string) (srv : Server) : Server :=
  let conns := map_delete connectionId (connections srv) in
  let st := snd (removeViewer sessionId viewerId (store srv)) in
  mkServer st conns
    (out srv ++ broadcastToSession conns sessionId
                  (mkMsg "viewer-leave" sessionId (Some (viewer_data viewerId))) None).

(** An HTTP answer: a JSON body, or an error status with its message. *)
Inductive Response (A : Type) :=
| Json (body : A)
| Status (code : Z) (message : string).
Arguments Json {A} _.
Arguments Status {A} _ _.

(** [Array.from(connections.values()).filter(conn => conn.sessionId === id
    && conn.ws.readyState === WebSocket.OPEN)] *)
Definition activeConnections (conns : list (string * ClientConnection)) (sid : string)
  : list ClientConnection :=
  map snd (List.filter (fun kc => String.eqb (c_sessionId kc.2) sid &&
                                  Z.eqb (readyState (ws kc.2)) OPEN) conns).

(** [GET /api/sessions/:id]: the session with its [viewerCount]. *)
Definition get_session_handler (srv : Server) (sid : string) : Response (Session * Z) :=
  match getSession (store srv) sid with
  | None => Status 404 "Session not found"
  | Some session =>
      Json (session, Z.of_nat (length (activeConnections (connections srv) sid)))
  end.

(** [GET /api/sessions/:id/viewers]: one [{ viewerId }] per active connection. *)
Definition get_viewers_handler (srv : Server) (sid : string) : list string :=
  map c_viewerId (activeConnections (connections srv) sid).

(** [getSessionViewers]: the registry entries of a session. The order of
    [Map.values()] is not kept by [gmap]; only membership is meant. *)
Definition getSessionViewers (st : MemStorage) (sessionId : string) : list Viewer :=
  List.filter (fun v => String.eqb (v_sessionId v) sessionId)
    (map snd (map_to_list (viewers st))).

(** The [users] part of [MemStorage] and its methods. *)
Record User := mkUser { user_id : Z; username : string; password : string }.

Record UserStore := mkUserStore { users : gmap Z User; currentUserId : Z }.

Definition getUser (us : UserStore) (uid : Z) : option User := users us !! uid.

Definition createUser (name pass : string) (us : UserStore) : User * UserStore :=
  let uid := currentUserId us in
  let user := mkUser uid name pass in
  (user, mkUserStore (<[uid := user]> (users us)) (uid + 1)).

(** Every stored user id is below the next id to hand out. *)
Definition users_below (us : UserStore) : Prop :=
  map_Forall (fun k _ => k < currentUserId us) (users us).

(** The types the [ws.on('message')] handler of server/routes.ts acts on
    beyond relaying. *)
Definition is_mutating_type (ty : string) : bool :=
  is_playback_type ty || String.eqb ty "video-change" || String.eqb ty "source-add" ||
  String.eqb ty "source-remove".

(** ** Predicates used by the properties *)

(** A parsed message whose type requires a [data] field it lacks: the
    [videoUrl] of [video-change], the [videoSource] of [source-add], the
    [selectedSourceId] of [source-remove]. *)
Definition lacks_required (m : SyncMessage) : bool :=
  (String.eqb (m_type m) "video-change" && negb (truthy_str (data_field d_videoUrl m))) ||
  (String.eqb (m_type m) "source-add" && negb (truthy_obj (data_field d_videoSource m))) ||
  (String.eqb (m_type m) "source-remove" &&
     negb (truthy_str (data_field d_selectedSourceId m))).

(** The stored [currentTime] is a non-negative number. *)
Definition cur_nonneg (s : Session) : Prop :=
  exists t, currentTime s = Val t /\ 0 <= t.

Definition store_cur_nonneg (st : MemStorage) : Prop :=
  map_Forall (fun _ s => cur_nonneg s) (sessions st).

(** A [sync]/[play]/[pause]/[seek] message carries a non-negative
    [currentTime]; other messages are unconstrained. *)
Definition msg_time_ok (m : SyncMessage) : Prop :=
  is_playback_type (m_type m) = false \/
  exists t, data_field d_currentTime m = Val t /\ 0 <= t.

(** A [source-remove] message for the source [sid]. *)
Definition source_remove_msg (s sid : string) : SyncMessage :=
  mkMsg "source-remove" s (Some (mkData Undef Undef Undef Undef (Val sid) Undef Undef)).

Definition session_sources (st : MemStorage) (s : string) : option (jsv (list VideoSource)) :=
  videoSources <$> sessions st !! s.

(** ** Concrete inputs *)

(** Five immediate failures, each followed by its reconnect timer, then a
    sixth failure, starting from a fresh [connect()]. *)
Definition five_failures_then_one : list Client.Event :=
  Client.Connect :: concat (repeat (Client.failure ++ [Client.TimerFire]) 5)
  ++ Client.failure.

Definition conn_a : ClientConnection := mkConn (mkWs 1 OPEN) "S" "a".
Definition conn_b : ClientConnection := mkConn (mkWs 2 OPEN) "S" "b".
Definition conn_c : ClientConnection := mkConn (mkWs 3 OPEN) "S" "c".
Definition ping : SyncMessage := mkMsg "play" "S" None.

Definition join_msg (s v : string) : SyncMessage :=
  mkMsg "viewer-join" s (Some (viewer_data v)).

Definition empty_server : Server := mkServer (mkStorage ∅ ∅ 1) [] [].

Definition fresh_store : MemStorage := mkStorage ∅ ∅ 1.

(** The session [POST /api/sessions] creates for [{sessionId: "abc"}]. *)
Definition abc_store : MemStorage :=
  snd (post_sessions createSession 0 "x" (Val "abc") Undef fresh_store).

(** A session playing [http://x/y.mp4] at 10 s, and a server holding it. *)
Definition playing_session : Session :=
  mkSession "abc" (Val "http://x/y.mp4") (Val []) Null (Val true) (Val 10) 0 0.

Definition playing_store : MemStorage := mkStorage {[ "abc" := playing_session ]} ∅ 1.

Definition playing_server : Server := mkServer playing_store [] [].

(** The message the client's [handleSeek] sends: [{ currentTime: time }]. *)
Definition seek_msg (t : Z) : SyncMessage :=
  mkMsg "seek" "abc" (Some (mkData (Val t) Undef Undef Undef Undef Undef Undef)).

(** A registry holding the viewer ["b-c"] of the session ["a"]. *)
Definition registry_a_bc : MemStorage := snd (addViewer 1 "a" "b-c" fresh_store).

(** Two viewers of the session ["abc"], both connected. *)
Definition two_viewers_server : Server :=
  mkServer playing_store
    [("c1", mkConn (mkWs 1 OPEN) "abc" "v1"); ("c2", mkConn (mkWs 2 OPEN) "abc" "v2")] [].

(** A [video-change] whose data has no [videoUrl]. *)
Definition bare_video_change : SyncMessage := mkMsg "video-change" "abc" (Some no_data).

Definition source_x : VideoSource := mkVideoSource "x" "http://x" "X" Undef Undef Undef.
Definition source_y : VideoSource := mkVideoSource "y" "http://y" "Y" (Val "en") Undef Undef.

(** The session ["abc"] offering two sources. *)
Definition sources_server : Server :=
  mkServer (mkStorage {[ "abc" := mkSession "abc" Null (Val [source_x; source_y]) Null
                                   (Val false) (Val 0) 0 0 ]} ∅ 1)
    [("c1", mkConn (mkWs 1 OPEN) "abc" "v1"); ("c2", mkConn (mkWs 2 OPEN) "abc" "v2")] [].

(** ** Properties *)

Module ClientFacts.
Import Client.

Example backoff_values :
  map backoff [0; 1; 2; 3; 4] = [1000; 2000; 4000; 8000; 10000].
Proof. reflexivity. Qed.

Lemma close_schedules (s : State) :
  scheduled (step s Close) =
  scheduled s ++ (if Z.ltb (reconnectAttempts s) 5
                  then [backoff (reconnectAttempts s)] else []).
Proof. unfold step. destruct (Z.ltb _ _); simpl; [done | by rewrite app_nil_r]. Qed.

(** C3: from a fresh connection (retry counter 0), five immediate failures
    schedule retries after 1000, 2000, 4000, 8000 and 10000 ms, each delay
    being [min(1000 * 2^retryCount, 10000)]; the sixth failure sets the
    status to [error] and schedules no retry (a timer event then changes
    nothing); and an [onopen] resets the retry counter to 0. *)
Theorem reconnect_backoff_sequence :
  let s := run initial five_failures_then_one in
  scheduled s = [1000; 2000; 4000; 8000; 10000] /\
  connectionStatus s = error /\
  reconnectTimeout s = None /\
  step s TimerFire = s /\
  (forall s0 : State, scheduled (step s0 Close) =
     scheduled s0 ++ (if Z.ltb (reconnectAttempts s0) 5
                      then [Z.min (1000 * 2 ^ reconnectAttempts s0) 10000] else [])) /\
  (forall s0 : State, reconnectAttempts (step s0 Open) = 0 /\
                      connectionStatus (step s0 Open) = connected).
Proof.
  simpl. repeat split; try reflexivity.
  intros s0. apply close_schedules.
Qed.

End ClientFacts.

Module Multiplexer.

Lemma broadcast_filter (conns : list (string * ClientConnection)) S m ex :
  broadcastToSession conns S m ex =
  map (fun kc => Send (ws_id (ws kc.2)) m)
    (List.filter (fun kc => delivers S ex kc.2) conns).
Proof.
  induction conns as [|[k c] t IH]; simpl; [done|].
  destruct (delivers S ex c); simpl; by rewrite IH.
Qed.

Lemma broadcast_app (l1 l2 : list (string * ClientConnection)) S m ex :
  broadcastToSession (l1 ++ l2) S m ex =
  broadcastToSession l1 S m ex ++ broadcastToSession l2 S m ex.
Proof.
  rewrite !broadcast_filter, List.filter_app. apply map_app.
Qed.

Lemma in_broadcast (conns : list (string * ClientConnection)) S m ex o :
  In o (broadcastToSession conns S m ex) <->
  exists k c, In (k, c) conns /\ delivers S ex c = true /\ o = Send (ws_id (ws c)) m.
Proof.
  rewrite broadcast_filter, in_map_iff. split.
  - intros [[k c] [<- Hin]]. apply filter_In in Hin as [Hin Hd].
    exists k, c. done.
  - intros (k & c & Hin & Hd & ->). exists (k, c). split; [done|].
    by apply filter_In.
Qed.

Lemma delivers_not_excluded S v c :
  delivers S (Some v) c = true -> c_viewerId c <> v.
Proof.
  unfold delivers, not_excluded. intros H Heq. subst v.
  rewrite String.eqb_refl in H. simpl in H. by rewrite andb_false_r in H.
Qed.

Lemma in_map_set {V} (k : string) (v : V) (l : list (string * V)) :
  In (k, v) (map_set k v l).
Proof.
  induction l as [|[k' v'] t IH]; simpl; [by left|].
  destruct (String.eqb k k'); simpl; [by left | by right].
Qed.

(** C2: [broadcastToSession(S, m, exclude)] sends [m] once to every
    registered connection, in registration order, whose sessionId is [S],
    whose viewerId is not [exclude] and whose socket is OPEN, and to no
    other; every connection's delivery depends only on that connection, so
    one that is skipped does not stop the others. With three connections
    A, B, C joined to S, open, and whose viewerIds differ from A's,
    excluding A's viewerId delivers [m] to B and C and not to A. *)
Theorem broadcast_exclusion (conns : list (string * ClientConnection))
    (S : string) (m : SyncMessage) (ex : option string)
    (ia ib ic : string) (A B C : ClientConnection)
    (HA : c_sessionId A = S) (HB : c_sessionId B = S) (HC : c_sessionId C = S)
    (HoB : readyState (ws B) = OPEN) (HoC : readyState (ws C) = OPEN)
    (HvB : c_viewerId B <> c_viewerId A) (HvC : c_viewerId C <> c_viewerId A) :
  broadcastToSession conns S m ex =
    map (fun kc => Send (ws_id (ws kc.2)) m)
      (List.filter (fun kc => String.eqb (c_sessionId kc.2) S &&
                              not_excluded (c_viewerId kc.2) ex &&
                              Z.eqb (readyState (ws kc.2)) OPEN) conns) /\
  (forall l1 l2 : list (string * ClientConnection),
     broadcastToSession (l1 ++ l2) S m ex =
     broadcastToSession l1 S m ex ++ broadcastToSession l2 S m ex) /\
  broadcastToSession [(ia, A); (ib, B); (ic, C)] S m (Some (c_viewerId A)) =
    [Send (ws_id (ws B)) m; Send (ws_id (ws C)) m].
Proof.
  split; [apply broadcast_filter|]. split; [intros; apply broadcast_app|].
  simpl. unfold delivers, not_excluded.
  rewrite HA, HB, HC, HoB, HoC, !String.eqb_refl. simpl.
  apply String.eqb_neq in HvB, HvC. by rewrite HvB, HvC.
Qed.

Lemma broadcast_exclusion_witness :
  broadcastToSession [("1", conn_a); ("2", conn_b); ("3", conn_c)] "S" ping
    (Some "a") = [Send 2 ping; Send 3 ping] /\
  broadcastToSession [("1", conn_a)] "S" ping None = [Send 1 ping].
Proof.
  split.
  - apply (broadcast_exclusion [] "S" ping None "1" "2" "3" conn_a conn_b conn_c);
      reflexivity || discriminate.
  - exact (proj1 (broadcast_exclusion [("1", conn_a)] "S" ping None "1" "2" "3"
                    conn_a conn_b conn_c eq_refl eq_refl eq_refl eq_refl eq_refl
                    ltac:(discriminate) ltac:(discriminate))).
Defined.

End Multiplexer.

Module Join.
Import Multiplexer.

Lemma on_connection_with_eq snap now cid sock s v srv :
  s <> "" -> v <> "" ->
  on_connection_with snap now cid sock (Some s) (Some v) srv =
  let conns := map_set cid (mkConn sock s v) (connections srv) in
  let st := snd (addViewer now s v (store srv)) in
  mkServer st conns
    (out srv ++ broadcastToSession conns s (join_msg s v) (Some v) ++
     match sessions (store srv) !! s with
     | Some session => if Z.eqb (readyState sock) OPEN
                       then [Send (ws_id sock) (snap s session)] else []
     | None => []
     end).
Proof.
  intros Hs Hv. unfold on_connection_with.
  apply String.eqb_neq in Hs, Hv. rewrite Hs, Hv. reflexivity.
Qed.

(** C10: a connection that registers with a sessionId absent from the
    store gets no snapshot: the only messages the join produces are the
    [viewer-join] notices to the other viewers of the session. The
    connection is still registered, its viewer is added to the registry,
    and (its socket being open) it receives every later broadcast to its
    session that does not exclude its viewerId. *)
Theorem join_unknown_session (now : Date) (cid : string) (sock : WebSocket)
    (s v : string) (srv : Server)
    (Hs : s <> "") (Hv : v <> "") (Hopen : readyState sock = OPEN)
    (Habsent : sessions (store srv) !! s = None) :
  let srv' := on_connection now cid sock (Some s) (Some v) srv in
  out srv' = out srv ++ broadcastToSession (connections srv') s (join_msg s v) (Some v) /\
  (forall o, In o (broadcastToSession (connections srv') s (join_msg s v) (Some v)) ->
     exists k c, In (k, c) (connections srv') /\ c_viewerId c <> v /\
                 o = Send (ws_id (ws c)) (join_msg s v)) /\
  In (cid, mkConn sock s v) (connections srv') /\
  viewers (store srv') !! viewer_key s v =
    Some (mkViewer (currentViewerId (store srv)) s v now) /\
  (forall (m : SyncMessage) (ex : option string),
     not_excluded v ex = false \/
     In (Send (ws_id sock) m) (broadcastToSession (connections srv') s m ex)).
Proof.
  unfold on_connection. rewrite on_connection_with_eq by done.
  rewrite Habsent. cbn zeta. simpl. rewrite app_nil_r.
  split; [done|]. split.
  { intros o Ho. apply in_broadcast in Ho as (k & c & Hin & Hd & ->).
    exists k, c. split; [done|]. split; [|done]. by eapply delivers_not_excluded. }
  split; [apply in_map_set|]. split; [apply lookup_insert_eq|].
  intros m ex. destruct (not_excluded v ex) eqn:Hex; [right|by left].
  apply in_broadcast. exists cid, (mkConn sock s v). split; [apply in_map_set|].
  split; [|done]. unfold delivers. simpl. rewrite String.eqb_refl, Hex, Hopen. done.
Qed.

Lemma join_unknown_session_witness :
  out (on_connection 0 "c1" (mkWs 7 OPEN) (Some "abc") (Some "v1") empty_server) = [] /\
  In ("c1", mkConn (mkWs 7 OPEN) "abc" "v1")
     (connections (on_connection 0 "c1" (mkWs 7 OPEN) (Some "abc") (Some "v1") empty_server)).
Proof.
  destruct (join_unknown_session 0 "c1" (mkWs 7 OPEN) "abc" "v1" empty_server
              ltac:(discriminate) ltac:(discriminate) eq_refl eq_refl)
    as (Hout & _ & Hin & _).
  split; [rewrite Hout; reflexivity | exact Hin].
Defined.

End Join.

Module Snapshot.
Import Multiplexer Join.

(** C1: a connection that registers with a sessionId known to the store,
    its socket being open, receives after the [viewer-join] notices to the
    other viewers exactly one [sync] message, addressed to it alone. In the
    bundled server its data is the store's state at that moment with the
    JavaScript defaults of [||]: [currentTime || 0], [isPlaying || false],
    [videoUrl || ''], [videoSources || []], and [selectedSourceId] as
    stored; each of the first four equals the stored value whenever that
    holds a value (not null or undefined). The variant of server/routes.ts
    sends the same first three fields and neither [videoSources] nor
    [selectedSourceId]. *)
Theorem join_snapshot (now : Date) (cid : string) (sock : WebSocket)
    (s v : string) (srv : Server) (sess : Session)
    (Hs : s <> "") (Hv : v <> "") (Hopen : readyState sock = OPEN)
    (Hsess : sessions (store srv) !! s = Some sess) :
  let srv' := on_connection now cid sock (Some s) (Some v) srv in
  out srv' = out srv ++ broadcastToSession (connections srv') s (join_msg s v) (Some v)
             ++ [Send (ws_id sock) (snapshot_bundle s sess)] /\
  (forall o, In o (broadcastToSession (connections srv') s (join_msg s v) (Some v)) ->
     exists k c, In (k, c) (connections srv') /\ c_viewerId c <> v /\
                 o = Send (ws_id (ws c)) (join_msg s v)) /\
  snapshot_bundle s sess =
    mkMsg "sync" s (Some (mkData (Val (or_Z (currentTime sess) 0))
                                 (Val (or_bool (isPlaying sess) false))
                                 (Val (or_str (videoUrl sess) ""))
                                 (Val (or_list (videoSources sess) []))
                                 (selectedSourceId sess) Undef Undef)) /\
  (forall t, or_Z (Val t) 0 = t) /\ (forall b, or_bool (Val b) false = b) /\
  (forall u, or_str (Val u) "" = u) /\
  (forall l : list VideoSource, or_list (Val l) [] = l) /\
  out (on_connection_routes now cid sock (Some s) (Some v) srv) =
    out srv ++ broadcastToSession (connections srv') s (join_msg s v) (Some v)
    ++ [Send (ws_id sock) (snapshot_routes s sess)] /\
  data_field d_videoSources (snapshot_routes s sess) = Undef /\
  data_field d_selectedSourceId (snapshot_routes s sess) = Undef.
Proof.
  cbn zeta. unfold on_connection, on_connection_routes.
  rewrite !on_connection_with_eq by done. simpl. rewrite Hsess, Hopen. simpl.
  split; [done|]. split.
  { intros o Ho. apply in_broadcast in Ho as (k & c & Hin & Hd & ->).
    exists k, c. split; [done|]. split; [|done]. by eapply delivers_not_excluded. }
  split; [done|]. split; [intros t; simpl; by destruct (Z.eqb_spec t 0)|].
  split; [by intros []|]. split; [intros u; simpl; by destruct (String.eqb_spec u "")|].
  split; [done|]. done.
Qed.

Lemma join_snapshot_witness :
  exists sess, sessions abc_store !! "abc" = Some sess /\
  out (on_connection 1 "c1" (mkWs 7 OPEN) (Some "abc") (Some "v1")
         (mkServer abc_store [] [])) = [Send 7 (snapshot_bundle "abc" sess)].
Proof.
  eexists. split; [reflexivity|].
  destruct (join_snapshot 1 "c1" (mkWs 7 OPEN) "abc" "v1" (mkServer abc_store [] [])
              _ ltac:(discriminate) ltac:(discriminate) eq_refl eq_refl) as [Hout _].
  rewrite Hout. reflexivity.
Defined.

(** A session created without a [videoUrl] stores [null]; the joining
    viewer's snapshot carries [''] in its place. *)
Lemma snapshot_null_videoUrl :
  exists sess, sessions abc_store !! "abc" = Some sess /\
  videoUrl sess = Null /\
  out (on_connection 1 "c1" (mkWs 7 OPEN) (Some "abc") (Some "v1")
         (mkServer abc_store [] [])) = [Send 7 (snapshot_bundle "abc" sess)] /\
  data_field d_videoUrl (snapshot_bundle "abc" sess) = Val "" /\
  data_field d_videoUrl (snapshot_bundle "abc" sess) <> videoUrl sess.
Proof.
  eexists. split; [reflexivity|]. split; [reflexivity|].
  split; [reflexivity|]. split; [reflexivity|]. discriminate.
Qed.

End Snapshot.

Module Store.

(** [createSession] replaces a session that is already stored. *)
Lemma createSession_overwrites :
  (sessions (snd (createSession_ts 5 (mkInsertSession "abc" Null Undef (Val false) (Val 0))
                   playing_store)) !! "abc") <> (sessions playing_store !! "abc") /\
  (sessions (snd (createSession 5 (mkInsertSession "abc" Null Undef (Val false) (Val 0))
                   playing_store)) !! "abc") <> (sessions playing_store !! "abc").
Proof. split; vm_compute; congruence. Qed.

(** C4: [createSession] itself overwrites, but [POST /api/sessions], the
    create-or-get operation, calls it only for an id absent from the store:
    for an id already present it returns the stored session and leaves the
    store unchanged, whatever the storage's [createSession]. *)
Theorem post_sessions_get_or_create
    (create : Date -> InsertSession -> MemStorage -> Session * MemStorage)
    (now : Date) (fresh : string) (body_sessionId body_videoUrl : jsv string)
    (st : MemStorage) (sess : Session)
    (Hsess : sessions st !! or_str body_sessionId fresh = Some sess) :
  post_sessions create now fresh body_sessionId body_videoUrl st = (sess, st).
Proof. unfold post_sessions, getSession. by rewrite Hsess. Qed.

Lemma post_sessions_get_or_create_witness :
  post_sessions createSession_ts 5 "x" (Val "abc") (Val "http://z") playing_store =
  (playing_session, playing_store).
Proof.
  apply (post_sessions_get_or_create createSession_ts 5 "x" (Val "abc") (Val "http://z")
           playing_store playing_session).
  reflexivity.
Defined.

(** The playback branch changes none of the source facet and no field
    other than [currentTime], [isPlaying] and [updatedAt]. *)
Lemma playback_frame (now : Date) (s : Session) (m : SyncMessage) :
  let s' := merge_patch now s (playback_patch m) in
  videoUrl s' = videoUrl s /\ videoSources s' = videoSources s /\
  selectedSourceId s' = selectedSourceId s /\ createdAt s' = createdAt s.
Proof. done. Qed.

(** C5: a [seek] carrying only [currentTime], as the client sends it,
    overwrites the stored [isPlaying] of a playing session with
    [undefined]; the next joining viewer is then told [isPlaying: false]. *)
Theorem seek_clears_isPlaying :
  let srv' := on_message 5 "f" "abc" "v1" (Parsed (seek_msg 42)) playing_server in
  sessions (store srv') !! "abc" =
    Some (mkSession "abc" (Val "http://x/y.mp4") (Val []) Null Undef (Val 42) 0 5) /\
  sessions (store (on_message_bundle 5 "abc" "v1" (Parsed (seek_msg 42)) playing_server))
    !! "abc" =
    Some (mkSession "abc" (Val "http://x/y.mp4") (Val []) Null Undef (Val 42) 0 5) /\
  isPlaying playing_session = Val true /\
  out (on_connection 6 "c2" (mkWs 8 OPEN) (Some "abc") (Some "v2") srv') =
    [Send 8 (mkMsg "sync" "abc" (Some (mkData (Val 42) (Val false)
               (Val "http://x/y.mp4") (Val []) Null Undef Undef)))].
Proof. vm_compute. repeat split. Qed.

(** C9: the registry key [sessionId-viewerId] is the same for the pairs
    ("a-b", "c") and ("a", "b-c"), so adding, removing or touching the
    first viewer overwrites, deletes or touches the entry of the second. *)
Theorem viewer_key_collision :
  viewer_key "a-b" "c" = viewer_key "a" "b-c" /\
  viewers registry_a_bc !! viewer_key "a" "b-c" = Some (mkViewer 1 "a" "b-c" 1) /\
  viewers (snd (addViewer 2 "a-b" "c" registry_a_bc)) !! viewer_key "a" "b-c" =
    Some (mkViewer 2 "a-b" "c" 2) /\
  viewers (snd (removeViewer "a-b" "c" registry_a_bc)) !! viewer_key "a" "b-c" = None /\
  viewers (updateViewerLastSeen 9 "a-b" "c" registry_a_bc) !! viewer_key "a" "b-c" =
    Some (mkViewer 1 "a" "b-c" 9).
Proof. vm_compute. repeat split. Qed.

End Store.

Module Messages.
Import Multiplexer.

Lemma lastSeen_sessions now s v st :
  sessions (updateViewerLastSeen now s v st) = sessions st.
Proof. unfold updateViewerLastSeen. by destruct (viewers st !! _). Qed.

(** Closes a goal stating that only the relay was sent. *)
Ltac relayed :=
  split; [done|]; split; [done|]; split; [done|];
  intros o Ho; apply in_broadcast in Ho as (k & c & Hin & Hd & ->);
  exists k, c; split; [done|]; split; [|done]; by eapply delivers_not_excluded.

Lemma in_broadcastRaw (conns : list (string * ClientConnection)) S raw ex o :
  In o (broadcastRaw conns S raw ex) ->
  exists k c, In (k, c) conns /\ delivers S ex c = true /\ o = SendRaw (ws_id (ws c)) raw.
Proof.
  induction conns as [|[k0 c0] t IH]; simpl; [done|].
  rewrite in_app_iff. intros [Ho|Ho].
  - destruct (delivers S ex c0) eqn:Hd; simpl in Ho; [|done].
    destruct Ho as [<-|[]]. exists k0, c0. auto.
  - destruct (IH Ho) as (k & c & Hin & Hd & ->). exists k, c. auto.
Qed.

Lemma on_message_parsed now fresh s v m srv :
  on_message now fresh s v (Parsed m) srv =
  let conns := connections srv in
  let st2 := step_video_change now s m (step_playback now s m (store srv)) in
  let r3 := step_source_add now fresh conns s m st2 in
  let r4 := step_source_remove now conns s m r3.1 in
  mkServer (updateViewerLastSeen now s v r4.1) conns
    (out srv ++ r3.2 ++ r4.2 ++ broadcastToSession conns s m (Some v)).
Proof. reflexivity. Qed.

(** C6: a frame that is not JSON, or is the JSON [null], is dropped: the
    server state, including what it has sent, is unchanged. A frame that
    is JSON but not an object (a number, a string, a boolean, an array)
    changes no session and no connection and sends nothing back to the
    sender, but it is relayed to the other viewers' open connections of
    the session. So is a parsed [video-change], [source-add] or
    [source-remove] message lacking its required data field, which also
    leaves the Session Store and the connections unchanged and sends
    nothing back to the sender. *)
Theorem malformed_message_handling (now : Date) (fresh s v : string)
    (srv : Server) (m : SyncMessage) (Hlack : lacks_required m = true) :
  on_message now fresh s v Unparseable srv = srv /\
  (forall raw, let srv' := on_message now fresh s v (NonObject raw) srv in
     sessions (store srv') = sessions (store srv) /\
     connections srv' = connections srv /\
     out srv' = out srv ++ broadcastRaw (connections srv) s raw (Some v) /\
     (forall o, In o (broadcastRaw (connections srv) s raw (Some v)) ->
        exists k c, In (k, c) (connections srv) /\ c_viewerId c <> v /\
                    o = SendRaw (ws_id (ws c)) raw)) /\
  let srv' := on_message now fresh s v (Parsed m) srv in
  sessions (store srv') = sessions (store srv) /\
  connections srv' = connections srv /\
  out srv' = out srv ++ broadcastToSession (connections srv) s m (Some v) /\
  (forall o, In o (broadcastToSession (connections srv) s m (Some v)) ->
     exists k c, In (k, c) (connections srv) /\ c_viewerId c <> v /\
                 o = Send (ws_id (ws c)) m).
Proof.
  split; [done|]. split.
  { intros raw. cbn zeta. simpl. rewrite lastSeen_sessions.
    split; [done|]. split; [done|]. split; [done|].
    intros o Ho. apply in_broadcastRaw in Ho as (k & c & Hin & Hd & ->).
    exists k, c. split; [done|]. split; [|done]. by eapply delivers_not_excluded. }
  cbn zeta. rewrite on_message_parsed. cbn zeta. simpl.
  rewrite lastSeen_sessions.
  destruct m as [ty ms [[ct ip vu vss ssid vid vsrc]|]];
    unfold lacks_required, data_field in Hlack; simpl in Hlack;
    unfold step_source_remove, step_source_add, step_video_change, step_playback,
      data_field; simpl;
    (apply orb_true_iff in Hlack as [Hlack|Hlack];
       [apply orb_true_iff in Hlack as [Hlack|Hlack]|]);
    apply andb_true_iff in Hlack as [Hty Hf]; apply String.eqb_eq in Hty; subst ty;
    simpl; try apply negb_true_iff in Hf.
  - rewrite Hf. simpl. relayed.
  - destruct vsrc; try discriminate; simpl; relayed.
  - destruct ssid as [| |x]; simpl; [relayed|relayed|].
    simpl in Hf. apply negb_false_iff, String.eqb_eq in Hf. subst x. simpl. relayed.
  - relayed.
  - relayed.
  - relayed.
Qed.

Lemma filter_idem {A} (f : A -> bool) (l : list A) :
  List.filter f (List.filter f l) = List.filter f l.
Proof.
  induction l as [|x t IH]; simpl; [done|].
  destruct (f x) eqn:E; simpl; [rewrite E, IH|]; done.
Qed.

Lemma source_remove_step now fresh s v sid srv sess :
  sessions (store srv) !! s = Some sess -> sid <> "" ->
  on_message now fresh s v (Parsed (source_remove_msg s sid)) srv =
  let l := List.filter (fun x => negb (String.eqb (vs_id x) sid))
             (or_list (videoSources sess) []) in
  mkServer (updateViewerLastSeen now s v (set_sessions (store srv)
              (<[s := merge_patch now sess (mkPatch None (Some (Val l)) None None None)]>
                 (sessions (store srv)))))
    (connections srv)
    (out srv ++ broadcastToSession (connections srv) s
                  (mkMsg "source-remove" s (Some (sources_data l))) None
             ++ broadcastToSession (connections srv) s (source_remove_msg s sid) (Some v)).
Proof.
  intros Hsess Hsid. rewrite on_message_parsed.
  unfold step_source_remove, step_source_add, step_video_change, step_playback,
    data_field, source_remove_msg. simpl.
  apply String.eqb_neq in Hsid. rewrite Hsid.
  unfold removeVideoSource. rewrite Hsess. by destruct (videoSources sess).
Qed.

(** C7: for a session in the store and a source id, a [source-remove]
    applied twice in a row leaves [videoSources] as the first application
    left it; each application broadcasts the updated full source list to
    every open connection of the session (and relays the message to the
    other viewers). *)
Theorem source_remove_idempotent (now1 now2 : Date) (fresh s v sid : string)
    (srv : Server) (sess : Session)
    (Hsess : sessions (store srv) !! s = Some sess) (Hsid : sid <> "") :
  let m := source_remove_msg s sid in
  let l1 := List.filter (fun x => negb (String.eqb (vs_id x) sid))
              (or_list (videoSources sess) []) in
  let sent := broadcastToSession (connections srv) s
                (mkMsg "source-remove" s (Some (sources_data l1))) None
              ++ broadcastToSession (connections srv) s m (Some v) in
  let srv1 := on_message now1 fresh s v (Parsed m) srv in
  let srv2 := on_message now2 fresh s v (Parsed m) srv1 in
  session_sources (store srv1) s = Some (Val l1) /\
  session_sources (store srv2) s = Some (Val l1) /\
  out srv1 = out srv ++ sent /\
  out srv2 = out srv1 ++ sent.
Proof.
  cbn zeta. rewrite (source_remove_step now1 fresh s v sid srv sess Hsess Hsid).
  set (l1 := List.filter _ _).
  set (sess1 := merge_patch now1 sess (mkPatch None (Some (Val l1)) None None None)).
  rewrite (source_remove_step now2 fresh s v sid _ sess1); cycle 1.
  { simpl. rewrite lastSeen_sessions. apply lookup_insert_eq. }
  { done. }
  simpl.
  unfold session_sources. rewrite !lastSeen_sessions. simpl.
  rewrite !lookup_insert_eq. simpl.
  assert (Hl : List.filter (fun x => negb (String.eqb (vs_id x) sid)) l1 = l1)
    by apply filter_idem.
  rewrite Hl. split; [done|]. split; [done|]. split; [done|]. by rewrite app_assoc.
Qed.

Lemma update_preserves now sid u st :
  store_cur_nonneg st ->
  (forall x, cur_nonneg x -> cur_nonneg (merge_patch now x u)) ->
  store_cur_nonneg (updateSession now sid u st).2.
Proof.
  intros Hinv Hu. unfold updateSession.
  destruct (sessions st !! sid) as [x|] eqn:E; simpl; [|done].
  apply map_Forall_insert_2; [apply Hu; by apply (Hinv sid x E)|done].
Qed.

Lemma keeps_time now x l :
  cur_nonneg x -> cur_nonneg (merge_patch now x (mkPatch None (Some l) None None None)).
Proof. done. Qed.

Lemma source_add_preserves now fresh conns s m st :
  store_cur_nonneg st -> store_cur_nonneg (step_source_add now fresh conns s m st).1.
Proof.
  intros Hinv. unfold step_source_add.
  destruct (String.eqb _ _), (data_field d_videoSource m) as [| |src]; try done.
  unfold addVideoSource.
  destruct (sessions st !! s) as [x|] eqn:E; simpl; [|done].
  apply map_Forall_insert_2; [apply keeps_time; by apply (Hinv s x E)|done].
Qed.

Lemma source_remove_preserves now conns s m st :
  store_cur_nonneg st -> store_cur_nonneg (step_source_remove now conns s m st).1.
Proof.
  intros Hinv. unfold step_source_remove.
  destruct (String.eqb _ _), (data_field d_selectedSourceId m) as [| |sid]; try done.
  destruct (String.eqb sid ""); [done|].
  unfold removeVideoSource.
  destruct (sessions st !! s) as [x|] eqn:E; simpl; [|done].
  apply map_Forall_insert_2; [apply keeps_time; by apply (Hinv s x E)|done].
Qed.

(** C8: [currentTime] is 0 in a session the bundled [createSession]
    creates (the stand-alone storage module stores [currentTime || null],
    i.e. null, for the initial 0) and after a [video-change]; a
    [sync]/[play]/[pause]/[seek] stores [data.currentTime] as received.
    So every stored [currentTime] stays a non-negative number through any
    message, provided a [sync]/[play]/[pause]/[seek] message carries a
    non-negative [currentTime]. *)
Theorem currentTime_nonneg_preserved (now : Date) (fresh s v : string)
    (srv : Server) (m : SyncMessage)
    (Hinv : store_cur_nonneg (store srv)) (Hm : msg_time_ok m) :
  store_cur_nonneg (store (on_message now fresh s v (Parsed m) srv)) /\
  (forall (ins : InsertSession) (st : MemStorage),
     currentTime (createSession now ins st).1 = Val 0) /\
  (forall st : MemStorage,
     currentTime (createSession_ts now (mkInsertSession s Null Undef (Val false) (Val 0))
                    st).1 = Null).
Proof.
  split; [|split; done].
  rewrite on_message_parsed. cbn zeta. simpl.
  unfold store_cur_nonneg. rewrite lastSeen_sessions. fold (store_cur_nonneg (step_source_remove now (connections srv) s m (step_source_add now fresh (connections srv) s m (step_video_change now s m (step_playback now s m (store srv)))).1).1).
  apply source_remove_preserves, source_add_preserves.
  unfold step_video_change.
  destruct (_ && _).
  { apply update_preserves; [|intros x _; by exists 0].
    unfold step_playback. destruct (is_playback_type (m_type m)) eqn:E; [|done].
    apply update_preserves; [done|].
    destruct Hm as [Hm|(t & Ht & Hle)]; [congruence|].
    intros x _. exists t. simpl. by rewrite Ht. }
  unfold step_playback. destruct (is_playback_type (m_type m)) eqn:E; [|done].
  apply update_preserves; [done|].
  destruct Hm as [Hm|(t & Ht & Hle)]; [congruence|].
  intros x _. exists t. simpl. by rewrite Ht.
Qed.

Lemma malformed_message_handling_witness :
  out (on_message 1 "f" "abc" "v1" (Parsed bare_video_change) two_viewers_server) =
    [Send 2 bare_video_change] /\
  sessions (store (on_message 1 "f" "abc" "v1" (Parsed bare_video_change)
                     two_viewers_server)) = sessions playing_store.
Proof.
  destruct (malformed_message_handling 1 "f" "abc" "v1" two_viewers_server
              bare_video_change eq_refl) as (_ & _ & Hs & _ & Hout & _).
  split; [rewrite Hout; reflexivity | exact Hs].
Defined.

(** A [video-change] without [videoUrl] is not dropped: the other viewer
    of the session receives it; nor is the JSON body [42], which is not an
    object. *)
Lemma malformed_message_relayed :
  lacks_required bare_video_change = true /\
  out (on_message 1 "f" "abc" "v1" (Parsed bare_video_change) two_viewers_server) =
    [Send 2 bare_video_change] /\
  out (on_message 1 "f" "abc" "v1" (NonObject "42") two_viewers_server) =
    [SendRaw 2 "42"].
Proof. split; [|split]; vm_compute; reflexivity. Qed.

Lemma source_remove_idempotent_witness :
  let srv1 := on_message 1 "f" "abc" "v1" (Parsed (source_remove_msg "abc" "x"))
                sources_server in
  session_sources (store (on_message 2 "f" "abc" "v1"
                            (Parsed (source_remove_msg "abc" "x")) srv1)) "abc" =
  Some (Val [source_y]).
Proof.
  destruct (source_remove_idempotent 1 2 "f" "abc" "v1" "x" sources_server _
              eq_refl ltac:(discriminate)) as (_ & H2 & _).
  exact H2.
Defined.

(** A [seek] to -5 s is stored as it is. *)
Lemma negative_seek_stored :
  sessions (store (on_message 5 "f" "abc" "v1" (Parsed (seek_msg (-5))) playing_server))
    !! "abc" =
    Some (mkSession "abc" (Val "http://x/y.mp4") (Val []) Null Undef (Val (-5)) 0 5) /\
  ~ store_cur_nonneg (store (on_message 5 "f" "abc" "v1" (Parsed (seek_msg (-5)))
                               playing_server)).
Proof.
  assert (H : sessions (store (on_message 5 "f" "abc" "v1" (Parsed (seek_msg (-5)))
                                 playing_server)) !! "abc" =
              Some (mkSession "abc" (Val "http://x/y.mp4") (Val []) Null Undef
                      (Val (-5)) 0 5)) by (vm_compute; reflexivity).
  split; [exact H|]. intros Hinv.
  destruct (Hinv "abc" _ H) as (t & Ht & Hle). simpl in Ht. injection Ht as <-. lia.
Qed.

Lemma currentTime_nonneg_preserved_witness :
  store_cur_nonneg (store (on_message 5 "f" "abc" "v1" (Parsed (seek_msg 42))
                             playing_server)).
Proof.
  apply (currentTime_nonneg_preserved 5 "f" "abc" "v1" playing_server (seek_msg 42)).
  - unfold store_cur_nonneg. simpl. apply map_Forall_singleton.
    exists 10. split; [reflexivity|lia].
  - right. exists 42. split; [reflexivity|lia].
Defined.

End Messages.

Module Registry.
Import Multiplexer.

Lemma map_delete_other {V} (k k' : string) (x : V) (l : list (string * V)) :
  k' <> k -> In (k', x) (map_delete k l) <-> In (k', x) l.
Proof.
  intros Hne. induction l as [|[k0 v0] t IH]; simpl; [done|].
  destruct (String.eqb_spec k k0) as [->|Hne0]; simpl.
  - split; [tauto|]. intros [H|H]; [congruence|done].
  - rewrite IH. tauto.
Qed.

Lemma map_delete_gone {V} (k : string) (x : V) (l : list (string * V)) :
  NoDup (map fst l) -> ~ In (k, x) (map_delete k l).
Proof.
  induction l as [|[k0 v0] t IH]; simpl; intros Hnd; [by intros []|].
  apply NoDup_cons in Hnd as [Hnin Hnd']. rewrite list_elem_of_In in Hnin.
  destruct (String.eqb_spec k k0) as [->|Hne]; simpl.
  - intros Hin. apply Hnin. apply (in_map fst) in Hin. done.
  - intros [H|H]; [congruence|by apply IH].
Qed.

(** [ws.on('close')]: the closed connection is deregistered (no entry for
    its id remains, the others are kept), the viewer's registry entry is
    gone, and the [viewer-leave] notice goes to every remaining open
    connection of the session, the viewer's other connections included. *)
Theorem close_deregisters (cid s v : string) (srv : Server)
    (Hnd : NoDup (map fst (connections srv))) :
  let srv' := on_close cid s v srv in
  (forall c, ~ In (cid, c) (connections srv')) /\
  (forall k c, k <> cid -> In (k, c) (connections srv') <-> In (k, c) (connections srv)) /\
  viewers (store srv') !! viewer_key s v = None /\
  out srv' = out srv ++ broadcastToSession (connections srv') s
                         (mkMsg "viewer-leave" s (Some (viewer_data v))) None.
Proof.
  cbn zeta. simpl. split; [intros c; by apply map_delete_gone|].
  split; [intros k c Hk; by apply map_delete_other|].
  split; [apply lookup_delete_eq|done].
Qed.

Lemma close_deregisters_witness :
  connections (on_close "c1" "abc" "v1" two_viewers_server) =
    [("c2", mkConn (mkWs 2 OPEN) "abc" "v2")] /\
  out (on_close "c1" "abc" "v1" two_viewers_server) =
    [Send 2 (mkMsg "viewer-leave" "abc" (Some (viewer_data "v1")))].
Proof.
  destruct (close_deregisters "c1" "abc" "v1" two_viewers_server
              ltac:(apply (bool_decide_unpack _); vm_compute; reflexivity))
    as (_ & _ & _ & Hout).
  split; [reflexivity|]. rewrite Hout. reflexivity.
Defined.

End Registry.

Module Http.
Import Multiplexer.

Lemma active_broadcast_length (conns : list (string * ClientConnection)) sid m :
  length (activeConnections conns sid) = length (broadcastToSession conns sid m None).
Proof.
  unfold activeConnections. rewrite broadcast_filter, !length_map.
  induction conns as [|[k c] t IH]; simpl; [done|].
  unfold delivers, not_excluded. rewrite andb_true_r.
  destruct (_ && _); simpl; by rewrite IH.
Qed.

(** [GET /api/sessions/:id] answers 404 for an unknown session; otherwise
    its [viewerCount] is the number of connections a broadcast to the
    session without exclusion reaches, which is also the length of the
    [GET /api/sessions/:id/viewers] list; a viewer appears in that list
    once per open connection of the session. *)
Theorem viewer_count_matches_broadcast (srv : Server) (sid : string) (m : SyncMessage) :
  get_session_handler srv sid =
    match sessions (store srv) !! sid with
    | None => Status 404 "Session not found"
    | Some session =>
        Json (session, Z.of_nat (length (broadcastToSession (connections srv) sid m None)))
    end /\
  length (get_viewers_handler srv sid) =
    length (broadcastToSession (connections srv) sid m None) /\
  (forall v, In v (get_viewers_handler srv sid) <->
     exists k c, In (k, c) (connections srv) /\ c_sessionId c = sid /\
                 readyState (ws c) = OPEN /\ c_viewerId c = v).
Proof.
  split; [unfold get_session_handler, getSession; by rewrite (active_broadcast_length _ _ m)|].
  split; [unfold get_viewers_handler; by rewrite length_map, (active_broadcast_length _ _ m)|].
  intros v. unfold get_viewers_handler, activeConnections.
  rewrite map_map, in_map_iff. split.
  - intros [[k c] [<- Hin]]. apply filter_In in Hin as [Hin Hd].
    apply andb_true_iff in Hd as [Hs Ho].
    apply String.eqb_eq in Hs. apply Z.eqb_eq in Ho. exists k, c. done.
  - intros (k & c & Hin & Hs & Ho & <-). exists (k, c). split; [done|].
    apply filter_In. split; [done|]. simpl. by rewrite Hs, Ho, String.eqb_refl.
Qed.

End Http.

Module StoreOps.

(** [removeViewer] reports whether the pair's entry existed and deletes
    it; a second [removeViewer] of the same pair reports false and changes
    nothing. After [addViewer], [removeViewer] of the same pair reports
    true and leaves the registry as before except that the pair's key
    holds no entry. *)
Theorem removeViewer_behaviour (now : Date) (s v : string) (st : MemStorage) :
  (removeViewer s v st).1 = bool_decide (is_Some (viewers st !! viewer_key s v)) /\
  viewers (removeViewer s v st).2 !! viewer_key s v = None /\
  removeViewer s v (removeViewer s v st).2 = (false, (removeViewer s v st).2) /\
  (removeViewer s v (addViewer now s v st).2).1 = true /\
  viewers (removeViewer s v (addViewer now s v st).2).2 =
    delete (viewer_key s v) (viewers st).
Proof.
  split; [done|]. split; [apply lookup_delete_eq|]. split.
  - unfold removeViewer at 1. simpl. rewrite lookup_delete_eq, delete_delete_eq.
    reflexivity.
  - unfold removeViewer, addViewer. simpl. rewrite lookup_insert_eq.
    split; [done|]. apply delete_insert_eq.
Qed.

(** [getSessionViewers] lists exactly the registry entries whose
    [sessionId] is the given one; an added viewer is among them. *)
Theorem getSessionViewers_spec (now : Date) (s v : string) (st : MemStorage) (x : Viewer) :
  (In x (getSessionViewers st s) <->
     exists k, viewers st !! k = Some x /\ v_sessionId x = s) /\
  In (mkViewer (currentViewerId st) s v now) (getSessionViewers (addViewer now s v st).2 s).
Proof.
  assert (Hspec : forall st' y, In y (getSessionViewers st' s) <->
                     exists k, viewers st' !! k = Some y /\ v_sessionId y = s).
  { intros st' y. unfold getSessionViewers. rewrite filter_In, in_map_iff.
    split.
    - intros [[[k y'] [Hy Hin]] Hs]. simpl in Hy. subst y'.
      apply String.eqb_eq in Hs. exists k. split; [|done].
      apply elem_of_map_to_list. by apply list_elem_of_In.
    - intros (k & Hk & Hs). split; [|by apply String.eqb_eq].
      exists (k, y). split; [done|]. apply list_elem_of_In.
      by apply elem_of_map_to_list. }
  split; [apply Hspec|]. apply Hspec. exists (viewer_key s v).
  split; [apply lookup_insert_eq|done].
Qed.

(** [createUser] hands out [currentUserId] and increments it: as long as
    every stored id is below the counter, the new user is found by
    [getUser], no earlier user is overwritten or changed, and the
    invariant still holds. *)
Theorem createUser_getUser (name pass : string) (us : UserStore)
    (Hinv : users_below us) :
  let r := createUser name pass us in
  getUser r.2 (user_id r.1) = Some r.1 /\
  username r.1 = name /\
  getUser us (user_id r.1) = None /\
  (forall uid u, getUser us uid = Some u -> getUser r.2 uid = Some u) /\
  users_below r.2.
Proof.
  cbn zeta. unfold createUser, getUser, users_below in *. simpl.
  split; [apply lookup_insert_eq|]. split; [done|].
  split.
  { apply eq_None_ne_Some. intros x E.
    specialize (Hinv _ _ E). simpl in Hinv. lia. }
  split.
  { intros uid u Hu. rewrite lookup_insert_ne; [done|].
    intros Heq. subst uid. specialize (Hinv _ _ Hu). simpl in Hinv. lia. }
  apply map_Forall_insert_2; simpl; [lia|].
  intros k x Hk. specialize (Hinv k x Hk). simpl in Hinv. lia.
Qed.

Lemma createUser_getUser_witness :
  getUser (createUser "bob" "pw" (createUser "ann" "pw" (mkUserStore ∅ 1)).2).2 1 =
  Some (mkUser 1 "ann" "pw").
Proof.
  destruct (createUser_getUser "ann" "pw" (mkUserStore ∅ 1)
              ltac:(apply map_Forall_empty)) as (H1 & _ & _ & _ & Hb).
  destruct (createUser_getUser "bob" "pw" (createUser "ann" "pw" (mkUserStore ∅ 1)).2 Hb)
    as (_ & _ & _ & Hkeep & _).
  apply Hkeep. exact H1.
Defined.

End StoreOps.

Module ClientRuns.
Import Client.

(** [connect()] does not reset the retry counter (only [onopen] does): once
    it has reached 5, a manual reconnect that fails at once ends in
    [error] without scheduling a retry. *)
Theorem connect_after_exhaustion (s : State) (Hexh : 5 <= reconnectAttempts s) :
  let s' := run s (Connect :: failure) in
  connectionStatus s' = error /\ isConnected s' = false /\
  reconnectAttempts s' = reconnectAttempts s /\
  reconnectTimeout s' = reconnectTimeout s /\ scheduled s' = scheduled s.
Proof.
  simpl. destruct (Z.ltb_spec (reconnectAttempts s) 5); [lia|]. done.
Qed.

Lemma connect_after_exhaustion_witness :
  connectionStatus (run (run initial five_failures_then_one) (Connect :: failure)) = error.
Proof.
  apply (connect_after_exhaustion (run initial five_failures_then_one)).
  vm_compute. discriminate.
Defined.

(** [disconnect()] clears the pending timer but leaves [onclose] attached
    and the retry counter as it was: when the close event of the socket it
    closes arrives with the counter below 5, a reconnect is scheduled
    again, and when that timer fires the hook connects anew with the
    counter one higher. *)
Theorem disconnect_then_close_reconnects (s : State)
    (Hlow : reconnectAttempts s < 5) :
  let s1 := step (step s Disconnect) Close in
  reconnectTimeout s1 = Some (backoff (reconnectAttempts s)) /\
  scheduled s1 = scheduled s ++ [backoff (reconnectAttempts s)] /\
  connectionStatus (step s1 TimerFire) = connecting /\
  reconnectAttempts (step s1 TimerFire) = reconnectAttempts s + 1.
Proof.
  simpl. destruct (Z.ltb_spec (reconnectAttempts s) 5); [|lia]. done.
Qed.

Lemma disconnect_then_close_reconnects_witness :
  connectionStatus (step (step (step (run initial [Connect; Open]) Disconnect) Close)
                      TimerFire) = connecting.
Proof.
  apply (disconnect_then_close_reconnects (run initial [Connect; Open])).
  vm_compute. reflexivity.
Defined.

End ClientRuns.

Module Handlers.

Lemma lastSeen_keeps_sessions now s v st :
  sessions (updateViewerLastSeen now s v st) = sessions st.
Proof. unfold updateViewerLastSeen. by destruct (viewers st !! _). Qed.

(** The bundled build's [video-change] with a truthy [videoUrl] replaces
    the session's source list by [data.videoSources || []] and its
    selection by [data.selectedSourceId], stores the new URL, rewinds to 0
    and pauses; the message is relayed to the other viewers. *)
Theorem bundle_video_change (now : Date) (sid vid : string) (m : SyncMessage)
    (srv : Server) (s : Session)
    (Hty : m_type m = "video-change")
    (Hurl : truthy_str (data_field d_videoUrl m) = true)
    (Hs : sessions (store srv) !! sid = Some s) :
  let srv' := on_message_bundle now sid vid (Parsed m) srv in
  exists s', sessions (store srv') !! sid = Some s' /\
    videoUrl s' = data_field d_videoUrl m /\
    videoSources s' = Val (or_list (data_field d_videoSources m) []) /\
    selectedSourceId s' = data_field d_selectedSourceId m /\
    isPlaying s' = Val false /\ currentTime s' = Val 0 /\
    createdAt s' = createdAt s /\
    out srv' = out srv ++ broadcastToSession (connections srv) sid m (Some vid).
Proof.
  cbn zeta. unfold on_message_bundle. rewrite Hty, Hurl. simpl.
  rewrite lastSeen_keeps_sessions. unfold updateSession. rewrite Hs. simpl.
  eexists. split; [apply lookup_insert_eq|]. done.
Qed.

Lemma bundle_video_change_witness :
  exists s', sessions (store (on_message_bundle 1 "abc" "v1"
      (Parsed (mkMsg "video-change" "abc"
                 (Some (mkData Undef Undef (Val "http://n") Undef Undef Undef Undef))))
      playing_server)) !! "abc" = Some s' /\ videoSources s' = Val [].
Proof.
  destruct (bundle_video_change 1 "abc" "v1"
              (mkMsg "video-change" "abc"
                 (Some (mkData Undef Undef (Val "http://n") Undef Undef Undef Undef)))
              playing_server playing_session eq_refl eq_refl eq_refl)
    as (s' & H1 & _ & H3 & _).
  exists s'. split; [exact H1|exact H3].
Defined.

(** server/routes.ts's [video-change] with a truthy [videoUrl] stores the
    new URL, rewinds to 0 and pauses, but keeps the session's source list
    and selected source. *)
Theorem routes_video_change (now : Date) (fresh sid vid : string) (m : SyncMessage)
    (srv : Server) (s : Session)
    (Hty : m_type m = "video-change")
    (Hurl : truthy_str (data_field d_videoUrl m) = true)
    (Hs : sessions (store srv) !! sid = Some s) :
  let srv' := on_message now fresh sid vid (Parsed m) srv in
  exists s', sessions (store srv') !! sid = Some s' /\
    videoUrl s' = data_field d_videoUrl m /\
    videoSources s' = videoSources s /\
    selectedSourceId s' = selectedSourceId s /\
    isPlaying s' = Val false /\ currentTime s' = Val 0 /\
    out srv' = out srv ++ broadcastToSession (connections srv) sid m (Some vid).
Proof.
  cbn zeta. unfold on_message, step_source_add, step_source_remove,
    step_video_change, step_playback, is_playback_type.
  rewrite Hty, Hurl. simpl.
  rewrite lastSeen_keeps_sessions. unfold updateSession. rewrite Hs. simpl.
  eexists. split; [apply lookup_insert_eq|]. done.
Qed.

Lemma routes_video_change_witness :
  exists s', sessions (store (on_message 1 "f" "abc" "v1"
      (Parsed (mkMsg "video-change" "abc"
                 (Some (mkData Undef Undef (Val "http://n") Undef Undef Undef Undef))))
      sources_server)) !! "abc" = Some s' /\ videoSources s' = Val [source_x; source_y].
Proof.
  destruct (routes_video_change 1 "f" "abc" "v1"
              (mkMsg "video-change" "abc"
                 (Some (mkData Undef Undef (Val "http://n") Undef Undef Undef Undef)))
              sources_server
              (mkSession "abc" Null (Val [source_x; source_y]) Null (Val false) (Val 0) 0 0)
              eq_refl eq_refl eq_refl)
    as (s' & H1 & _ & H3 & _).
  exists s'. split; [exact H1|exact H3].
Defined.

(** The bundled build neither stores nor relays a [source-change]
    message: the sessions, the connections and everything sent are as
    before. *)
Theorem bundle_source_change_dropped (now : Date) (sid vid : string) (m : SyncMessage)
    (srv : Server) (Hty : m_type m = "source-change") :
  let srv' := on_message_bundle now sid vid (Parsed m) srv in
  sessions (store srv') = sessions (store srv) /\
  connections srv' = connections srv /\ out srv' = out srv.
Proof.
  cbn zeta. unfold on_message_bundle. rewrite Hty. simpl.
  rewrite lastSeen_keeps_sessions. split; [done|]. split; [done|].
  apply app_nil_r.
Qed.

Lemma bundle_source_change_dropped_witness :
  out (on_message_bundle 1 "abc" "v1" (Parsed (mkMsg "source-change" "abc" None))
         two_viewers_server) = [].
Proof.
  apply (bundle_source_change_dropped 1 "abc" "v1" (mkMsg "source-change" "abc" None)
           two_viewers_server).
  reflexivity.
Defined.

(** In server/routes.ts a message of a type other than
    [sync]/[play]/[pause]/[seek]/[video-change]/[source-add]/[source-remove]
    (for instance [source-change] or [chat]) changes no session and is only
    relayed to the other viewers of the session. *)
Theorem routes_relay_only (now : Date) (fresh sid vid : string) (m : SyncMessage)
    (srv : Server) (Hty : is_mutating_type (m_type m) = false) :
  let srv' := on_message now fresh sid vid (Parsed m) srv in
  sessions (store srv') = sessions (store srv) /\
  connections srv' = connections srv /\
  out srv' = out srv ++ broadcastToSession (connections srv) sid m (Some vid).
Proof.
  unfold is_mutating_type in Hty.
  apply orb_false_iff in Hty as [Hty Hrm].
  apply orb_false_iff in Hty as [Hty Hadd].
  apply orb_false_iff in Hty as [Hpb Hvc].
  cbn zeta. unfold on_message, step_source_add, step_source_remove,
    step_video_change, step_playback.
  rewrite Hpb, Hvc, Hadd, Hrm. simpl.
  rewrite lastSeen_keeps_sessions. done.
Qed.

Lemma routes_relay_only_witness :
  out (on_message 1 "f" "abc" "v1" (Parsed (mkMsg "source-change" "abc" None))
         two_viewers_server) = [Send 2 (mkMsg "source-change" "abc" None)].
Proof.
  destruct (routes_relay_only 1 "f" "abc" "v1" (mkMsg "source-change" "abc" None)
              two_viewers_server eq_refl) as (_ & _ & ->).
  reflexivity.
Defined.

(** [POST /api/sessions] for an id the bundled store does not hold
    creates a paused session at 0 with no sources under that id and leaves
    every other session as it was. When the body names its [sessionId], a
    repeated POST with the same [sessionId] returns that session without
    changing the store, whatever id [nanoid()] yields then; when it does
    not, a repeated POST whose fresh [nanoid()] is another unused id
    creates a second session. *)
Theorem post_creates_then_gets (now now' : Date) (fresh fresh' : string)
    (b_id b_url b_url' : jsv string) (st : MemStorage)
    (Habsent : sessions st !! or_str b_id fresh = None) :
  let r := post_sessions createSession now fresh b_id b_url st in
  sessions r.2 !! or_str b_id fresh = Some r.1 /\
  id r.1 = or_str b_id fresh /\
  isPlaying r.1 = Val false /\ currentTime r.1 = Val 0 /\
  videoSources r.1 = Val [] /\
  (forall k, k <> or_str b_id fresh -> sessions r.2 !! k = sessions st !! k) /\
  (truthy_str b_id = true ->
     post_sessions createSession now' fresh' b_id b_url' r.2 = r) /\
  (truthy_str b_id = false -> fresh' <> fresh -> sessions st !! fresh' = None ->
     let r' := post_sessions createSession now' fresh' b_id b_url' r.2 in
     id r'.1 = fresh' /\ sessions r'.2 !! fresh = Some r.1 /\
     sessions r'.2 !! fresh' = Some r'.1).
Proof.
  assert (Hor : forall f, truthy_str b_id = false -> or_str b_id f = f).
  { intros f. destruct b_id as [| |x]; simpl; [done|done|].
    destruct (String.eqb x ""); done. }
  assert (Hor' : forall f f', truthy_str b_id = true -> or_str b_id f = or_str b_id f').
  { intros f f'. destruct b_id as [| |x]; simpl; [done|done|].
    destruct (String.eqb x ""); done. }
  cbn zeta.
  destruct (post_sessions createSession now fresh b_id b_url st) as [s1 st1] eqn:Er.
  unfold post_sessions, getSession in Er. rewrite Habsent in Er.
  unfold createSession in Er. simpl in Er. injection Er as <- <-. simpl.
  split; [apply lookup_insert_eq|].
  split; [done|]. split; [done|]. split; [done|]. split; [done|].
  split; [intros k Hk; by apply lookup_insert_ne|].
  split.
  - intros Ht. unfold post_sessions, getSession. simpl.
    rewrite (Hor' fresh' fresh Ht), lookup_insert_eq. reflexivity.
  - intros Hf Hne Hab. rewrite Hor in Habsent |- * by done.
    unfold post_sessions, getSession. simpl. rewrite (Hor fresh' Hf).
    rewrite lookup_insert_ne by congruence. rewrite Hab. simpl.
    split; [done|]. split; [|apply lookup_insert_eq].
    rewrite lookup_insert_ne by congruence. apply lookup_insert_eq.
Qed.

Lemma post_creates_then_gets_witness :
  post_sessions createSession 2 "y" (Val "abc") Undef abc_store =
  post_sessions createSession 0 "x" (Val "abc") Undef fresh_store.
Proof.
  destruct (post_creates_then_gets 0 2 "x" "y" (Val "abc") Undef Undef fresh_store
              eq_refl) as (_ & _ & _ & _ & _ & _ & Hrep & _).
  apply Hrep. reflexivity.
Defined.

(** With the stand-alone storage module, [POST /api/sessions] for a new id
    stores neither the posted [videoUrl] nor the initial [false]/[0]
    (they become undefined, null and null), and the join snapshot of
    server/routes.ts still reports an empty URL, paused, at 0. *)
Theorem post_ts_drops_fields (now : Date) (fresh : string)
    (b_id b_url : jsv string) (st : MemStorage)
    (Habsent : sessions st !! or_str b_id fresh = None) :
  let r := post_sessions createSession_ts now fresh b_id b_url st in
  sessions r.2 !! or_str b_id fresh = Some r.1 /\
  videoUrl r.1 = Undef /\ isPlaying r.1 = Null /\ currentTime r.1 = Null /\
  snapshot_routes (or_str b_id fresh) r.1 =
    mkMsg "sync" (or_str b_id fresh)
      (Some (mkData (Val 0) (Val false) (Val "") Undef Undef Undef Undef)).
Proof.
  cbn zeta. unfold post_sessions, getSession. rewrite Habsent.
  unfold createSession_ts. simpl.
  split; [apply lookup_insert_eq|]. done.
Qed.

Lemma post_ts_drops_fields_witness :
  videoUrl (post_sessions createSession_ts 0 "x" (Val "abc") (Val "http://v")
              fresh_store).1 = Undef.
Proof.
  destruct (post_ts_drops_fields 0 "x" (Val "abc") (Val "http://v") fresh_store eq_refl)
    as (_ & H & _).
  exact H.
Defined.

End Handlers.
